(** * Elderly-patient health dashboard: the vitals generator and its consumers

    A shallow embedding of [app.py].  The script fabricates 24 hourly vital-sign
    readings with [generate_sample_vitals], takes the last row as the "latest"
    reading, draws a page with Streamlit and Plotly, and finally runs two
    assertions over the table inside a [try]/[except AssertionError].

    Modelling choices.
    - A naive [datetime] is an integer number of microseconds counted from
      0001-01-01T00:00:00, which is how CPython's [datetime] arithmetic works
      (proleptic Gregorian ordinal, seconds, microseconds).
    - A NumPy float is an exact rational; [ndarray.round(1)] is
      [rint (x * 10) / 10] with [rint] rounding halves to even.
    - The process' ambient state (system clock, NumPy's global generator, the
      Streamlit page being built) is threaded explicitly through a state and
      exception monad [Py].
    - The global generator is a tape of standard normal variates and a read
      position; [np.random.normal(loc, scale, size)] reads [size] variates and
      returns [loc + scale * z] for each, as NumPy's legacy generator does. *)

From Stdlib Require Import ZArith QArith Qround Qabs List String Bool Lia Lqa Sorted.
Import ListNotations.

Local Open Scope string_scope.
Local Open Scope Z_scope.

(* ------------------------------------------------------------------ *)
(** ** Python values used by the script *)

(** Exceptions that the modelled code can raise. *)
Inductive exn : Type :=
| TypeError
| ValueError
| IndexError
| KeyError (key : string)
| AssertionError (msg : string).

(** One entry of a column.  [Missing] is pandas' null marker (NaN / NaT / None). *)
Inductive cell : Type :=
| Missing
| Time (t : Z)
| Float (x : Q)
| Int (n : Z)
| Str (s : string).

Definition isnull (c : cell) : bool :=
  match c with Missing => true | _ => false end.

(* ------------------------------------------------------------------ *)
(** ** [datetime] and [timedelta] *)

Module Datetime.

Definition us_per_second : Z := 1000000.
Definition us_per_hour : Z := 3600 * us_per_second.
Definition us_per_day : Z := 24 * us_per_hour.

(** [timedelta(hours=i)], in microseconds. *)
Definition timedelta_hours (i : Z) : Z := i * us_per_hour.

Definition is_leap (y : Z) : bool :=
  (y mod 4 =? 0) && (negb (y mod 100 =? 0) || (y mod 400 =? 0)).

(** Days before January 1st of year [y] (CPython's [_days_before_year]). *)
Definition days_before_year (y : Z) : Z :=
  let p := y - 1 in p * 365 + p / 4 - p / 100 + p / 400.

Definition days_in_month (y m : Z) : Z :=
  if m =? 2 then (if is_leap y then 29 else 28)
  else if (m =? 4) || (m =? 6) || (m =? 9) || (m =? 11) then 30 else 31.

(** Days of year [y] before the first day of month [m]. *)
Definition days_before_month (y m : Z) : Z :=
  fold_right Z.add 0
    (map (fun k => days_in_month y (Z.of_nat k)) (seq 1 (Z.to_nat (m - 1)))).

(** Proleptic Gregorian ordinal; 0001-01-01 is day 1 (CPython's [_ymd2ord]). *)
Definition ymd2ord (y m d : Z) : Z :=
  days_before_year y + days_before_month y m + d.

(** The naive datetime [datetime(y, m, d, hh, mm, ss)]. *)
Definition datetime (y m d hh mm ss : Z) : Z :=
  (ymd2ord y m d - 1) * us_per_day
  + hh * us_per_hour + mm * 60 * us_per_second + ss * us_per_second.

End Datetime.

(* ------------------------------------------------------------------ *)
(** ** NumPy rounding *)

(** [rint]: nearest integer, halves to the even neighbour. *)
Definition rint (x : Q) : Z :=
  let f := Qfloor x in
  match Qcompare (x - inject_Z f) (1 # 2) with
  | Lt => f
  | Gt => f + 1
  | Eq => if Z.even f then f else f + 1
  end.

(** [x.round(1)] on one element. *)
Definition round1 (x : Q) : Q := Qmake (rint (x * inject_Z 10)) 10.

(* ------------------------------------------------------------------ *)
(** ** pandas tables *)

(** A pandas [Series] obtained as a row: label-indexed cells. *)
Definition Series : Type := list (string * cell).

(** A [DataFrame] with the default [RangeIndex]: its number of rows and its
    columns in insertion order. *)
Record DataFrame : Type := mkDataFrame {
  nrows : nat;
  columns : list (string * list cell)
}.

Fixpoint lookup {A : Type} (k : string) (l : list (string * A)) : option A :=
  match l with
  | [] => None
  | (k', v) :: l' => if String.eqb k k' then Some v else lookup k l'
  end.

Definition column_names (df : DataFrame) : list string := map fst (columns df).

(** [col in df.columns]. *)
Definition has_column (df : DataFrame) (col : string) : bool :=
  existsb (String.eqb col) (column_names df).

(** [df.empty]: some axis has length zero. *)
Definition empty (df : DataFrame) : bool :=
  (nrows df =? 0)%nat || (List.length (columns df) =? 0)%nat.

(** Row [i] of the table, [i] already normalised. *)
Definition row_at (df : DataFrame) (i : nat) : Series :=
  map (fun kc => (fst kc, nth i (snd kc) Missing)) (columns df).

(* ------------------------------------------------------------------ *)
(** ** The ambient state and the [Py] monad *)

(** An f-string: literal text and interpolated cells, in order. *)
Inductive piece : Type :=
| Lit (s : string)
| Val (c : cell).

Inductive chart_kind : Type :=
| Pie | Line | Bar | Area | Scatter | Histogram | Box | ScatterMatrix.

(** A Plotly figure: its kind, its title, the table it was built from and the
    columns of that table it refers to. *)
Record Figure : Type := mkFigure {
  fig_kind : chart_kind;
  fig_title : string;
  fig_data : DataFrame;
  fig_columns : list string
}.

(** What the script puts on the Streamlit page, one event per call. *)
Inductive event : Type :=
| SetPageConfig (page_title layout : string)
| Title (s : string)
| Header (s : string)
| Markdown (body : list piece)
| Columns (n : nat)
| Metric (label : string) (value : list piece)
| PlotlyChart (fig : Figure)
| Table (df : DataFrame)
| Error (body : list piece).

Record World : Type := mkWorld {
  clock : nat -> Z;          (* successive readings of the system clock *)
  clock_pos : nat;           (* how many readings have been taken *)
  gauss : nat -> Q;          (* standard normal variates of the global generator *)
  rng_pos : nat;             (* how many of them have been consumed *)
  page : list event          (* the page so far, oldest event first *)
}.

(** The instant the next [datetime.now()] returns. *)
Definition now_of (w : World) : Z := clock w (clock_pos w).

Definition Py (A : Type) : Type := World -> (exn + A) * World.

Definition ret {A : Type} (a : A) : Py A := fun w => (inr a, w).

Definition raise {A : Type} (e : exn) : Py A := fun w => (inl e, w).

Definition bind {A B : Type} (c : Py A) (k : A -> Py B) : Py B :=
  fun w =>
    match c w with
    | (inl e, w') => (inl e, w')
    | (inr a, w') => k a w'
    end.

(** [try: c  except AssertionError as e: h e]. *)
Definition try_except_AssertionError {A : Type}
    (c : Py A) (h : string -> Py A) : Py A :=
  fun w =>
    match c w with
    | (inl (AssertionError msg), w') => h msg w'
    | r => r
    end.

Declare Scope py_scope.
Delimit Scope py_scope with py.
Notation "x <- c ;; k" := (bind c (fun x => k))
  (at level 61, c at next level, right associativity) : py_scope.
Notation "c ;; k" := (bind c (fun _ => k))
  (at level 61, right associativity) : py_scope.
Local Open Scope py_scope.

(** [datetime.now()]. *)
Definition datetime_now : Py Z :=
  fun w =>
    (inr (now_of w),
     mkWorld (clock w) (S (clock_pos w)) (gauss w) (rng_pos w) (page w)).

(** [np.random.normal(loc, scale, size)]. *)
Definition np_random_normal (loc scale : Q) (size : nat) : Py (list Q) :=
  fun w =>
    (inr (map (fun k => (loc + scale * gauss w (rng_pos w + k)%nat)%Q) (seq 0 size)),
     mkWorld (clock w) (clock_pos w) (gauss w) (rng_pos w + size)%nat (page w)).

(** The world with [evs] appended to its page. *)
Definition add_events (w : World) (evs : list event) : World :=
  mkWorld (clock w) (clock_pos w) (gauss w) (rng_pos w) (page w ++ evs).

(** A Streamlit call: it appends one event to the page. *)
Definition emit (e : event) : Py unit := fun w => (inr tt, add_events w [e]).

(** [assert b, msg]. *)
Definition assert (b : bool) (msg : string) : Py unit :=
  if b then ret tt else raise (AssertionError msg).

(** [pd.DataFrame(d)] for a dict [d] of equal-length sequences. *)
Definition pd_DataFrame (d : list (string * list cell)) : Py DataFrame :=
  match d with
  | [] => ret (mkDataFrame 0 [])
  | (_, c) :: _ =>
      if forallb (fun kc => (List.length (snd kc) =? List.length c)%nat) d
      then ret (mkDataFrame (List.length c) d)
      else raise ValueError
  end.

(** [df.iloc[i]] with an integer [i]: negative positions count from the end. *)
Definition iloc (df : DataFrame) (i : Z) : Py Series :=
  let n := Z.of_nat (nrows df) in
  let j := if i <? 0 then i + n else i in
  if (0 <=? j) && (j <? n) then ret (row_at df (Z.to_nat j))
  else raise IndexError.

(** [s[key]] on a row. *)
Definition getitem (s : Series) (key : string) : Py cell :=
  match lookup key s with
  | Some c => ret c
  | None => raise (KeyError key)
  end.

(** Python's [range(start, stop, step)], [step <> 0]. *)
Definition range (start stop step : Z) : list Z :=
  let count :=
    if 0 <? step then (stop - start + step - 1) / step
    else (start - stop - step - 1) / (- step) in
  map (fun k => start + Z.of_nat k * step) (seq 0 (Z.to_nat count)).

(* ------------------------------------------------------------------ *)
(** ** Sample data generation *)

Definition col_timestamp : string := "Timestamp".
Definition col_heart_rate : string := "Heart Rate (BPM)".
Definition col_systolic : string := "Systolic BP (mmHg)".
Definition col_diastolic : string := "Diastolic BP (mmHg)".
Definition col_spo2 : string := "SpO2 (%)".
Definition col_temperature : string := "Temperature (F)".

Definition generate_sample_vitals : Py DataFrame :=
  now <- datetime_now ;;
  let time_range :=
    map (fun i => now - Datetime.timedelta_hours i) (range 23 (-1) (-1)) in
  heart_rate <- np_random_normal 75 5 24 ;;
  systolic <- np_random_normal 120 10 24 ;;
  diastolic <- np_random_normal 80 5 24 ;;
  spo2 <- np_random_normal 98 1 24 ;;
  temperature <- np_random_normal 98.6 0.5 24 ;;
  pd_DataFrame
    [ (col_timestamp, map Time time_range);
      (col_heart_rate, map Float (map round1 heart_rate));
      (col_systolic, map Float (map round1 systolic));
      (col_diastolic, map Float (map round1 diastolic));
      (col_spo2, map Float (map round1 spo2));
      (col_temperature, map Float (map round1 temperature)) ].

(** A call of [generate_sample_vitals] with positional arguments [args]: the
    function is declared with no parameter, so any argument is a [TypeError]. *)
Definition call_generate_sample_vitals (args : list cell) : Py DataFrame :=
  match args with
  | [] => generate_sample_vitals
  | _ :: _ => raise TypeError
  end.

(* ------------------------------------------------------------------ *)
(** ** Static data *)

Definition medical_conditions : list (string * Z) :=
  [ ("Diabetes", 1); ("Hypertension", 1); ("Arthritis", 0);
    ("Asthma", 0); ("Heart Disease", 1); ("Others", 0) ].

Definition medication_schedule : list (list (string * cell)) :=
  [ [("Medicine", Str "Aspirin"); ("Dosage", Str "75mg"); ("Time", Str "8:00 AM")];
    [("Medicine", Str "Metformin"); ("Dosage", Str "500mg"); ("Time", Str "12:00 PM")];
    [("Medicine", Str "Atorvastatin"); ("Dosage", Str "10mg"); ("Time", Str "8:00 PM")] ].

Definition patient_profile : list (string * cell) :=
  [ ("Name", Str "John Doe");
    ("Age", Int 72);
    ("Gender", Str "Male");
    ("Blood Group", Str "B+");
    ("Allergies", Str "None");
    ("Emergency Contact", Str "Jane Doe (+1234567890)");
    ("Address", Str "123 Elderly Lane, Healthville");
    ("Assigned Doctor", Str "Dr. Smith, General Medicine") ].

(* ------------------------------------------------------------------ *)
(** ** pandas and Plotly helpers used by the page *)

(** [pd.DataFrame.from_dict(d, orient='index', columns=[c])] followed by
    [reset_index().rename(columns={'index': k})]: the keys become column [k]. *)
Definition from_dict_index (k c : string) (d : list (string * Z)) : DataFrame :=
  mkDataFrame (List.length d)
    [ (k, map (fun kv => Str (fst kv)) d); (c, map (fun kv => Int (snd kv)) d) ].

Fixpoint keep {A : Type} (mask : list bool) (l : list A) : list A :=
  match mask, l with
  | true :: m, x :: l' => x :: keep m l'
  | false :: m, _ :: l' => keep m l'
  | _, _ => []
  end.

(** [df[df[c] == 1]]: the rows whose entry in column [c] is the integer 1. *)
Definition rows_where_one (df : DataFrame) (c : string) : Py DataFrame :=
  match lookup c (columns df) with
  | None => raise (KeyError c)
  | Some col =>
      let mask := map (fun x => match x with Int 1 => true | _ => false end) col in
      ret (mkDataFrame (List.length (filter (fun b => b) mask))
             (map (fun kc => (fst kc, keep mask (snd kc))) (columns df)))
  end.

(** [pd.DataFrame(records)] for a list of dicts with the keys of the first. *)
Definition DataFrame_of_records (rs : list (list (string * cell))) : DataFrame :=
  match rs with
  | [] => mkDataFrame 0 []
  | r :: _ =>
      mkDataFrame (List.length rs)
        (map (fun k =>
                (k, map (fun r' => match lookup k r' with
                                   | Some c => c
                                   | None => Missing
                                   end) rs))
             (map fst r))
  end.

(** A [plotly.express] constructor: every column it is told to use must be a
    column of the table, else Plotly raises [ValueError]. *)
Definition px (kind : chart_kind) (df : DataFrame) (cols : list string)
    (title : string) : Py Figure :=
  if forallb (has_column df) cols then ret (mkFigure kind title df cols)
  else raise ValueError.

Fixpoint for_each {A : Type} (l : list A) (body : A -> Py unit) : Py unit :=
  match l with
  | [] => ret tt
  | x :: l' => body x ;; for_each l' body
  end.

(* ------------------------------------------------------------------ *)
(** ** The page *)

(** The columns the final assertion looks for. *)
Definition asserted_columns : list string :=
  [col_heart_rate; col_systolic; col_diastolic; col_spo2].

(** The two assertions of the "Error Handling" block. *)
Definition integrity_asserts (vitals_df : DataFrame) : Py unit :=
  assert (negb (empty vitals_df)) "Vitals data is missing." ;;
  assert (forallb (has_column vitals_df) asserted_columns)
         "Missing vital sign columns.".

(** The whole [try]/[except AssertionError] block. *)
Definition error_handling (vitals_df : DataFrame) : Py unit :=
  try_except_AssertionError
    (integrity_asserts vitals_df)
    (fun e => emit (Error [Lit "Data Error: "; Val (Str e)])).

(** [latest_vital = vitals_df.iloc[-1]]. *)
Definition latest_vital (vitals_df : DataFrame) : Py Series := iloc vitals_df (-1).

Definition show_profile : Py unit :=
  emit (Header "👤 Patient Profile") ;;
  for_each patient_profile
    (fun kv => emit (Markdown [Lit "**"; Val (Str (fst kv)); Lit ":** "; Val (snd kv)])).

Definition show_metrics (latest : Series) : Py unit :=
  emit (Header "🔴 Real-time Vitals") ;;
  emit (Columns 4) ;;
  hr <- getitem latest col_heart_rate ;;
  emit (Metric "Heart Rate" [Val hr; Lit " BPM"]) ;;
  sys <- getitem latest col_systolic ;;
  dia <- getitem latest col_diastolic ;;
  emit (Metric "Blood Pressure" [Val sys; Lit "/"; Val dia; Lit " mmHg"]) ;;
  ox <- getitem latest col_spo2 ;;
  emit (Metric "SpO2" [Val ox; Lit " %"]) ;;
  temp <- getitem latest col_temperature ;;
  emit (Metric "Temperature" [Val temp; Lit " °F"]).

Definition show_history : Py unit :=
  emit (Header "📋 Medical History") ;;
  let condition_df := from_dict_index "Condition" "Has Condition" medical_conditions in
  present <- rows_where_one condition_df "Has Condition" ;;
  pie_fig <- px Pie present ["Condition"] "Existing Medical Conditions" ;;
  emit (PlotlyChart pie_fig).

Definition show_medication : Py unit :=
  emit (Header "💊 Medication Schedule") ;;
  emit (Table (DataFrame_of_records medication_schedule)).

Definition show_trends (vitals_df : DataFrame) : Py unit :=
  emit (Header "📈 Vitals Trend (Last 24 Hours)") ;;
  fig1 <- px Line vitals_df [col_timestamp; col_heart_rate] "Heart Rate Over Time" ;;
  fig2 <- px Line vitals_df [col_timestamp; col_systolic; col_diastolic]
             "Blood Pressure Over Time" ;;
  fig3 <- px Line vitals_df [col_timestamp; col_spo2] "SpO2 Over Time" ;;
  fig4 <- px Line vitals_df [col_timestamp; col_temperature]
             "Body Temperature Over Time" ;;
  fig5 <- px Bar vitals_df [col_timestamp; col_heart_rate] "Heart Rate Distribution" ;;
  fig6 <- px Area vitals_df [col_timestamp; col_temperature] "Temperature Area Chart" ;;
  fig7 <- px Scatter vitals_df [col_systolic; col_diastolic; col_heart_rate; col_spo2]
             "Blood Pressure Scatter Plot" ;;
  fig8 <- px Histogram vitals_df [col_heart_rate] "Heart Rate Histogram" ;;
  fig9 <- px Box vitals_df [col_temperature] "Temperature Box Plot" ;;
  fig10 <- px ScatterMatrix vitals_df
             [col_heart_rate; col_systolic; col_diastolic; col_spo2]
             "Vitals Scatter Matrix" ;;
  emit (Columns 2) ;; emit (PlotlyChart fig1) ;; emit (PlotlyChart fig2) ;;
  emit (Columns 2) ;; emit (PlotlyChart fig3) ;; emit (PlotlyChart fig4) ;;
  emit (Columns 2) ;; emit (PlotlyChart fig5) ;; emit (PlotlyChart fig6) ;;
  emit (Columns 2) ;; emit (PlotlyChart fig7) ;; emit (PlotlyChart fig8) ;;
  emit (Columns 2) ;; emit (PlotlyChart fig9) ;; emit (PlotlyChart fig10).

Definition show_footer : Py unit :=
  emit (Markdown [Lit "---"]) ;;
  emit (Markdown [Lit "👨‍⚕️ *Developed for remote elderly patient health tracking.*"]).

(** What the script shows from the table: from [latest_vital = ...] down to the
    last [plotly_chart] call. *)
Definition present (vitals_df : DataFrame) : Py unit :=
  latest <- latest_vital vitals_df ;;
  show_profile ;;
  show_metrics latest ;;
  show_history ;;
  show_medication ;;
  show_trends vitals_df.

(** Everything the script does with the table once it has it. *)
Definition dashboard (vitals_df : DataFrame) : Py unit :=
  present vitals_df ;;
  error_handling vitals_df ;;
  show_footer.

(** The script, top to bottom. *)
Definition app : Py unit :=
  emit (SetPageConfig "Elderly Health Monitor" "wide") ;;
  emit (Title "🩺 Elderly Patient Health Dashboard") ;;
  vitals_df <- call_generate_sample_vitals [] ;;
  dashboard vitals_df.

(* ------------------------------------------------------------------ *)
(** ** The contract of the generator, as the specification words it *)

(** The five numeric columns the generator fills, in table order. *)
Definition vital_columns : list string :=
  [col_heart_rate; col_systolic; col_diastolic; col_spo2; col_temperature].

Module Spec.

(** One Gaussian column: 24 draws of mean [loc] and deviation [scale], each
    rounded to one decimal; [z] is the stream of standard normal variates and
    [off] where this column starts reading it. *)
Definition sample_column (loc scale : Q) (z : nat -> Q) (off : nat) : list cell :=
  map (fun i => Float (round1 (loc + scale * z (off + i)%nat))) (seq 0 24).

(** The 24 instants [now - 23h, now - 22h, ..., now]. *)
Definition hourly_window (now : Z) : list Z :=
  map (fun i => now - (23 - Z.of_nat i) * Datetime.us_per_hour) (seq 0 24).

(** [generate(now)]: 24 hourly rows ending at [now], five independent
    Gaussian fields per row. *)
Definition generate (now : Z) (z : nat -> Q) : DataFrame :=
  mkDataFrame 24
    [ (col_timestamp, map Time (hourly_window now));
      (col_heart_rate, sample_column 75 5 z 0);
      (col_systolic, sample_column 120 10 z 24);
      (col_diastolic, sample_column 80 5 z 48);
      (col_spo2, sample_column 98 1 z 72);
      (col_temperature, sample_column 98.6 0.5 z 96) ].

End Spec.

(** The world a call of the generator leaves behind: one clock reading and 120
    variates consumed, the page untouched. *)
Definition after_generate (w : World) : World :=
  mkWorld (clock w) (S (clock_pos w)) (gauss w) (rng_pos w + 120)%nat (page w).

(** The variates the next calls of the global generator will see. *)
Definition upcoming (w : World) : nat -> Q := fun k => gauss w (rng_pos w + k)%nat.

(* ------------------------------------------------------------------ *)
(** ** Observations on tables *)

(** The instants held by the [Timestamp] column, top to bottom. *)
Definition timestamps (df : DataFrame) : list Z :=
  match lookup col_timestamp (columns df) with
  | Some col => flat_map (fun c => match c with Time t => [t] | _ => [] end) col
  | None => []
  end.


(** [df.drop(columns=[c])]: the table without column [c]. *)
Definition without_column (c : string) (df : DataFrame) : DataFrame :=
  mkDataFrame (nrows df)
    (filter (fun kc => negb (String.eqb (fst kc) c)) (columns df)).

(** Some column of [vital_columns] is absent from the table. *)
Definition lacks_vital (df : DataFrame) : bool :=
  existsb (fun c => negb (has_column df c)) vital_columns.

(** The event is a chart, or the error box of the integrity check. *)
Definition is_chart (ev : event) : bool :=
  match ev with PlotlyChart _ => true | _ => false end.

Definition is_error (ev : event) : bool :=
  match ev with Error _ => true | _ => false end.

(** The charts on a page that were drawn from table [df], by title. *)
Definition chart_titles (evs : list event) : list string :=
  flat_map (fun ev => match ev with
                      | PlotlyChart f => [fig_title f]
                      | _ => []
                      end) evs.

(** Two consecutive calls of the generator. *)
Definition generate_twice : Py (DataFrame * DataFrame) :=
  first <- generate_sample_vitals ;;
  second <- generate_sample_vitals ;;
  ret (first, second).

(* ------------------------------------------------------------------ *)
(** ** Concrete inputs *)

(** Worlds used as concrete inputs: the clock stands at noon of 2024-01-01 and
    the generator's variates are all [z]. *)
Definition noon_2024 : Z := Datetime.datetime 2024 1 1 12 0 0.

Definition world_at (now : Z) (z : Q) : World :=
  mkWorld (fun _ => now) 0 (fun _ => z) 0 [].

(** A table as the generator makes it, used as a concrete input below. *)
Definition sample_table : DataFrame := Spec.generate noon_2024 (fun _ => 0%Q).

Definition data_error (msg : string) : event :=
  Error [Lit "Data Error: "; Val (Str msg)].

(** The titles of the ten charts drawn from the vitals table, in page order. *)
Definition trend_titles : list string :=
  [ "Heart Rate Over Time"; "Blood Pressure Over Time"; "SpO2 Over Time";
    "Body Temperature Over Time"; "Heart Rate Distribution";
    "Temperature Area Chart"; "Blood Pressure Scatter Plot";
    "Heart Rate Histogram"; "Temperature Box Plot"; "Vitals Scatter Matrix" ].

(* ------------------------------------------------------------------ *)
(** ** Observations on the page *)

(** The labels of the metric widgets on a page, in order. *)
Definition metric_labels (evs : list event) : list string :=
  flat_map (fun ev => match ev with
                      | Metric label _ => [label]
                      | _ => []
                      end) evs.

(** The tables the charts of a page were drawn from, in order. *)
Definition chart_tables (evs : list event) : list DataFrame :=
  flat_map (fun ev => match ev with
                      | PlotlyChart f => [fig_data f]
                      | _ => []
                      end) evs.

(** The four metric widgets and the columns of the latest row each one reads. *)
Definition metric_widgets : list (string * list string) :=
  [ ("Heart Rate", [col_heart_rate]);
    ("Blood Pressure", [col_systolic; col_diastolic]);
    ("SpO2", [col_spo2]);
    ("Temperature", [col_temperature]) ].

(** The row has a cell under label [c]. *)
Definition has_label (row : Series) (c : string) : bool :=
  match lookup c row with Some _ => true | None => false end.

(** The longest prefix of the widgets all of whose columns the row has. *)
Fixpoint shown_widgets (row : Series) (ws : list (string * list string)) : list string :=
  match ws with
  | [] => []
  | (label, cols) :: ws' =>
      if forallb (has_label row) cols then label :: shown_widgets row ws' else []
  end.

(** The exception that stops the script on a table that has no row or lacks a
    column, read off the table alone; [None] when it has rows and the six
    columns. *)
Definition expected_failure (df : DataFrame) : option exn :=
  if (nrows df =? 0)%nat then Some IndexError
  else match find (fun c => negb (has_column df c)) vital_columns with
       | Some c => Some (KeyError c)
       | None => if has_column df col_timestamp then None else Some ValueError
       end.



(** The entries of a conditions dictionary whose flag is 1. *)
Definition flagged (d : list (string * Z)) : list (string * Z) :=
  filter (fun kv => snd kv =? 1) d.

(** The cell a record holds under key [k] ([NaN] when it has none). *)
Definition field (k : string) (r : list (string * cell)) : cell :=
  match lookup k r with Some c => c | None => Missing end.

(** The four metric widgets, filled from a row. *)
Definition latest_widgets (row : Series) : list event :=
  [ Metric "Heart Rate" [Val (field col_heart_rate row); Lit " BPM"];
    Metric "Blood Pressure"
      [Val (field col_systolic row); Lit "/"; Val (field col_diastolic row); Lit " mmHg"];
    Metric "SpO2" [Val (field col_spo2 row); Lit " %"];
    Metric "Temperature" [Val (field col_temperature row); Lit " °F"] ].



(* ------------------------------------------------------------------ *)
(** ** Facts about the generator *)

Lemma range_23_down :
  range 23 (-1) (-1) =
  [23; 22; 21; 20; 19; 18; 17; 16; 15; 14; 13; 12; 11; 10; 9; 8; 7; 6; 5; 4; 3; 2; 1; 0].
Proof. reflexivity. Qed.

Lemma time_range_window (now : Z) :
  map (fun i => now - Datetime.timedelta_hours i) (range 23 (-1) (-1))
  = Spec.hourly_window now.
Proof. rewrite range_23_down. reflexivity. Qed.

Lemma normal_column (w : World) (loc scale : Q) (p off : nat) :
  p = (rng_pos w + off)%nat ->
  map Float (map round1
    (map (fun k => (loc + scale * gauss w (p + k)%nat)%Q) (seq 0 24)))
  = Spec.sample_column loc scale (upcoming w) off.
Proof.
  intros ->. unfold Spec.sample_column, upcoming.
  rewrite !map_map. apply map_ext. intro k.
  now rewrite Nat.add_assoc.
Qed.

Lemma generate_sample_vitals_run (w : World) :
  generate_sample_vitals w
  = (inr (Spec.generate (now_of w) (upcoming w)), after_generate w).
Proof.
  unfold generate_sample_vitals, bind, datetime_now, np_random_normal.
  cbn [clock clock_pos gauss rng_pos page].
  rewrite time_range_window.
  rewrite (normal_column w 75 5 _ 0) by now rewrite Nat.add_0_r.
  rewrite (normal_column w 120 10 _ 24) by reflexivity.
  rewrite (normal_column w 80 5 _ 48) by now rewrite <- Nat.add_assoc.
  rewrite (normal_column w 98 1 _ 72) by now rewrite <- !Nat.add_assoc.
  rewrite (normal_column w 98.6 0.5 _ 96) by now rewrite <- !Nat.add_assoc.
  unfold pd_DataFrame, ret, Spec.generate, after_generate.
  cbn [forallb snd].
  replace (rng_pos w + 24 + 24 + 24 + 24 + 24)%nat with (rng_pos w + 120)%nat by lia.
  reflexivity.
Qed.

Lemma row_lookup (df : DataFrame) (i : nat) (c : string) :
  lookup c (row_at df i)
  = option_map (fun col => nth i col Missing) (lookup c (columns df)).
Proof.
  unfold row_at. induction (columns df) as [|[k col] l IH]; cbn; [reflexivity|].
  destruct (String.eqb c k); [reflexivity | exact IH].
Qed.

Lemma sample_column_nth (loc scale : Q) (z : nat -> Q) (off i : nat) :
  (i < 24)%nat ->
  nth i (Spec.sample_column loc scale z off) Missing
  = Float (round1 (loc + scale * z (off + i)%nat)).
Proof.
  intro Hi. unfold Spec.sample_column.
  rewrite (nth_indep _ Missing (Float (round1 (loc + scale * z (off + 0)%nat)))).
  - rewrite (map_nth (fun k => Float (round1 (loc + scale * z (off + k)%nat)))).
    now rewrite seq_nth.
  - now rewrite length_map, length_seq.
Qed.

Lemma sample_column_length (loc scale : Q) (z : nat -> Q) (off : nat) :
  List.length (Spec.sample_column loc scale z off) = 24%nat.
Proof. reflexivity. Qed.

Lemma sample_column_populated (loc scale : Q) (z : nat -> Q) (off : nat) :
  Forall (fun x => isnull x = false /\ exists q, x = Float q)
         (Spec.sample_column loc scale z off).
Proof.
  unfold Spec.sample_column. apply Forall_forall. intros x Hx.
  apply in_map_iff in Hx. destruct Hx as [k [<- _]].
  split; [reflexivity | eexists; reflexivity].
Qed.

Lemma hourly_window_nth (now : Z) (i : nat) :
  (i < 24)%nat ->
  nth i (Spec.hourly_window now) 0 = now - (23 - Z.of_nat i) * Datetime.us_per_hour.
Proof.
  intro Hi. unfold Spec.hourly_window.
  rewrite (nth_indep _ 0 (now - (23 - Z.of_nat 0) * Datetime.us_per_hour)).
  - rewrite (map_nth (fun k => now - (23 - Z.of_nat k) * Datetime.us_per_hour)).
    now rewrite seq_nth.
  - now rewrite length_map, length_seq.
Qed.

Lemma timestamps_generate (now : Z) (z : nat -> Q) :
  timestamps (Spec.generate now z) = Spec.hourly_window now.
Proof. reflexivity. Qed.

(** Strictly increasing images of consecutive naturals are strictly sorted. *)
Lemma StronglySorted_map_seq (f : nat -> Z) (n a : nat) :
  (forall i j, (i < j)%nat -> f i < f j) ->
  StronglySorted Z.lt (map f (seq a n)).
Proof.
  intro Hf. revert a. induction n as [|n IH]; intro a; cbn; constructor.
  - apply IH.
  - apply Forall_forall. intros y Hy. apply in_map_iff in Hy.
    destruct Hy as [j [<- Hj]]. apply in_seq in Hj. apply Hf. lia.
Qed.

Lemma hourly_window_sorted (now : Z) : StronglySorted Z.lt (Spec.hourly_window now).
Proof.
  apply StronglySorted_map_seq. intros i j Hij.
  unfold Datetime.us_per_hour, Datetime.us_per_second. lia.
Qed.




Lemma iloc_in_range (df : DataFrame) (i : nat) (w : World) :
  (i < nrows df)%nat -> iloc df (Z.of_nat i) w = (inr (row_at df i), w).
Proof.
  intro Hi. unfold iloc.
  replace (Z.of_nat i <? 0) with false by (symmetry; apply Z.ltb_ge; lia).
  replace (0 <=? Z.of_nat i) with true by (symmetry; apply Z.leb_le; lia).
  replace (Z.of_nat i <? Z.of_nat (nrows df)) with true
    by (symmetry; apply Z.ltb_lt; lia).
  cbn. now rewrite Nat2Z.id.
Qed.

Lemma iloc_last (df : DataFrame) (n : nat) (w : World) :
  nrows df = S n -> iloc df (-1) w = (inr (row_at df n), w).
Proof.
  intro Hn. unfold iloc. rewrite Hn.
  change (-1 <? 0) with true. cbv iota.
  replace (0 <=? -1 + Z.of_nat (S n)) with true by (symmetry; apply Z.leb_le; lia).
  replace (-1 + Z.of_nat (S n) <? Z.of_nat (S n)) with true
    by (symmetry; apply Z.ltb_lt; lia).
  cbn [andb]. unfold ret. do 3 f_equal. lia.
Qed.

Lemma iloc_no_rows (df : DataFrame) (w : World) :
  nrows df = 0%nat -> iloc df (-1) w = (inl IndexError, w).
Proof. intro Hn. unfold iloc. rewrite Hn. reflexivity. Qed.

Lemma sample_column_ext (loc scale : Q) (z1 z2 : nat -> Q) (off : nat) :
  (forall i, (i < 24)%nat -> z1 (off + i)%nat = z2 (off + i)%nat) ->
  Spec.sample_column loc scale z1 off = Spec.sample_column loc scale z2 off.
Proof.
  intro Hz. unfold Spec.sample_column. apply map_ext_in.
  intros i Hi. apply in_seq in Hi. now rewrite Hz by lia.
Qed.

(** The row at position [i] of a generated table, field by field. *)
Lemma generate_row (now : Z) (z : nat -> Q) (i : nat) :
  (i < 24)%nat ->
  let row := row_at (Spec.generate now z) i in
  lookup col_heart_rate row = Some (Float (round1 (75 + 5 * z (0 + i)%nat))) /\
  lookup col_systolic row = Some (Float (round1 (120 + 10 * z (24 + i)%nat))) /\
  lookup col_diastolic row = Some (Float (round1 (80 + 5 * z (48 + i)%nat))) /\
  lookup col_spo2 row = Some (Float (round1 (98 + 1 * z (72 + i)%nat))) /\
  lookup col_temperature row = Some (Float (round1 (98.6 + 0.5 * z (96 + i)%nat))).
Proof.
  intros Hi row. subst row. rewrite !row_lookup.
  change (lookup col_heart_rate (columns (Spec.generate now z)))
    with (Some (Spec.sample_column 75 5 z 0)).
  change (lookup col_systolic (columns (Spec.generate now z)))
    with (Some (Spec.sample_column 120 10 z 24)).
  change (lookup col_diastolic (columns (Spec.generate now z)))
    with (Some (Spec.sample_column 80 5 z 48)).
  change (lookup col_spo2 (columns (Spec.generate now z)))
    with (Some (Spec.sample_column 98 1 z 72)).
  change (lookup col_temperature (columns (Spec.generate now z)))
    with (Some (Spec.sample_column 98.6 0.5 z 96)).
  cbn [option_map]. rewrite !sample_column_nth by exact Hi.
  repeat split; reflexivity.
Qed.

(* ------------------------------------------------------------------ *)
(** ** Shape of the generated table *)

(** C1.  Every call of the generator returns a table of exactly 24 rows; each of
    the five numeric columns (heart rate, systolic, diastolic, SpO2,
    temperature) holds 24 cells, none of them null, and each of the 24 rows
    carries a number in each of the five fields. *)
Theorem generate_sample_vitals_24_populated (w : World) :
  exists df,
    fst (generate_sample_vitals w) = inr df /\
    nrows df = 24%nat /\
    Forall (fun col =>
              exists xs, lookup col (columns df) = Some xs /\
                         List.length xs = 24%nat /\
                         Forall (fun x => isnull x = false /\ exists q, x = Float q) xs)
           vital_columns /\
    Forall (fun i =>
              exists row, fst (iloc df (Z.of_nat i) w) = inr row /\
                          Forall (fun col => exists q, lookup col row = Some (Float q))
                                 vital_columns)
           (seq 0 24).
Proof.
  rewrite generate_sample_vitals_run. eexists. split; [reflexivity|].
  split; [reflexivity|]. split.
  - unfold vital_columns.
    repeat (apply Forall_cons;
            [eexists; split; [reflexivity|];
             split; [apply sample_column_length | apply sample_column_populated]|]).
    apply Forall_nil.
  - apply Forall_forall. intros i Hi. apply in_seq in Hi.
    rewrite iloc_in_range by (cbn; lia).
    eexists. split; [reflexivity|].
    destruct (generate_row (now_of w) (upcoming w) i) as (H1 & H2 & H3 & H4 & H5);
      [lia|].
    unfold vital_columns.
    repeat (apply Forall_cons; [eexists; eassumption|]).
    apply Forall_nil.
Qed.

(** C2.  In every generated table the timestamps are strictly increasing, two
    consecutive ones are exactly one hour apart, the last one is the instant
    read from the clock and the first one is that instant minus 23 hours;
    generating at 2024-01-01T12:00:00 gives 2023-12-31T13:00:00 first and
    2024-01-01T12:00:00 last. *)
Theorem generate_sample_vitals_hourly :
  (forall w : World,
      exists df,
        fst (generate_sample_vitals w) = inr df /\
        lookup col_timestamp (columns df) = Some (map Time (timestamps df)) /\
        List.length (timestamps df) = 24%nat /\
        StronglySorted Z.lt (timestamps df) /\
        Forall (fun i => nth (S i) (timestamps df) 0 - nth i (timestamps df) 0
                         = Datetime.us_per_hour) (seq 0 23) /\
        last (timestamps df) 0 = now_of w /\
        hd 0 (timestamps df) = now_of w - Datetime.timedelta_hours 23) /\
  (forall (z : nat -> Q) (cp rp : nat) (pg : list event),
      exists df,
        fst (generate_sample_vitals (mkWorld (fun _ => noon_2024) cp z rp pg)) = inr df /\
        hd 0 (timestamps df) = Datetime.datetime 2023 12 31 13 0 0 /\
        last (timestamps df) 0 = Datetime.datetime 2024 1 1 12 0 0).
Proof.
  split.
  - intro w. rewrite generate_sample_vitals_run. eexists. split; [reflexivity|].
    rewrite timestamps_generate. split; [reflexivity|]. split; [reflexivity|].
    split; [apply hourly_window_sorted|]. split; [|split].
    + apply Forall_forall. intros i Hi. apply in_seq in Hi.
      rewrite !hourly_window_nth by lia.
      unfold Datetime.us_per_hour, Datetime.us_per_second. lia.
    + cbn. unfold Datetime.us_per_hour. lia.
    + reflexivity.
  - intros z cp rp pg. rewrite generate_sample_vitals_run. eexists.
    split; [reflexivity|]. rewrite timestamps_generate. split; reflexivity.
Qed.

(* ------------------------------------------------------------------ *)
(** ** The numeric fields *)



(* ------------------------------------------------------------------ *)
(** ** What the result depends on *)

(** C10.  Two runs that read the same instant from the clock and see the same
    120 variates return the same table: same columns, same timestamps, same
    numbers. *)
Theorem generate_sample_vitals_deterministic (w1 w2 : World) :
  now_of w1 = now_of w2 ->
  (forall k, (k < 120)%nat -> upcoming w1 k = upcoming w2 k) ->
  fst (generate_sample_vitals w1) = fst (generate_sample_vitals w2).
Proof.
  intros Hnow Hz. rewrite !generate_sample_vitals_run. cbn [fst].
  rewrite Hnow. unfold Spec.generate.
  rewrite (sample_column_ext 75 5 (upcoming w1) (upcoming w2) 0),
          (sample_column_ext 120 10 (upcoming w1) (upcoming w2) 24),
          (sample_column_ext 80 5 (upcoming w1) (upcoming w2) 48),
          (sample_column_ext 98 1 (upcoming w1) (upcoming w2) 72),
          (sample_column_ext 98.6 0.5 (upcoming w1) (upcoming w2) 96);
    try reflexivity; intros i Hi; apply Hz; lia.
Qed.

Lemma generate_sample_vitals_deterministic_witness :
  fst (generate_sample_vitals (mkWorld (fun _ => noon_2024) 0 (fun k => inject_Z (Z.of_nat k)) 0 []))
  = fst (generate_sample_vitals
           (mkWorld (fun n => noon_2024 + Z.of_nat n - 7) 7
                    (fun k => inject_Z (Z.of_nat (k - 5))) 5 [Title "x"])).
Proof.
  apply generate_sample_vitals_deterministic.
  - unfold now_of. cbn [clock clock_pos]. lia.
  - intros k Hk. unfold upcoming. cbn [gauss rng_pos].
    do 2 f_equal. lia.
Defined.

(** C9.  Two consecutive calls that read the same instant return tables of the
    same length with the same timestamps; their numbers need not agree, since
    the second call reads the next 120 variates. *)
Theorem generate_twice_same_now :
  (forall w : World,
      clock w (S (clock_pos w)) = clock w (clock_pos w) ->
      exists a b,
        fst (generate_twice w) = inr (a, b) /\
        nrows a = nrows b /\
        timestamps a = timestamps b /\
        lookup col_timestamp (columns a) = lookup col_timestamp (columns b)) /\
  (exists w a b,
      clock w (S (clock_pos w)) = clock w (clock_pos w) /\
      fst (generate_twice w) = inr (a, b) /\
      lookup col_heart_rate (columns a) <> lookup col_heart_rate (columns b)).
Proof.
  split.
  - intros w Hsame. unfold generate_twice, bind.
    rewrite !generate_sample_vitals_run. do 2 eexists.
    split; [reflexivity|].
    unfold now_of, after_generate. cbn [clock clock_pos]. rewrite Hsame.
    repeat split; reflexivity.
  - exists (mkWorld (fun _ => noon_2024) 0
              (fun k => if (k <? 120)%nat then 0%Q else 1%Q) 0 []).
    unfold generate_twice, bind. rewrite !generate_sample_vitals_run.
    do 2 eexists. split; [reflexivity|]. split; [reflexivity|].
    intro H. vm_compute in H. discriminate H.
Qed.

Lemma generate_twice_same_now_witness :
  exists a b,
    fst (generate_twice (world_at noon_2024 0)) = inr (a, b) /\
    nrows a = nrows b /\
    timestamps a = timestamps b /\
    lookup col_timestamp (columns a) = lookup col_timestamp (columns b).
Proof.
  apply (proj1 generate_twice_same_now (world_at noon_2024 0)). reflexivity.
Defined.

(** C3 (as the code has it).  The generator takes no argument: a call that
    passes anything is a [TypeError] and leaves the world as it was.  Called
    with no argument it reads the clock itself, once, and returns exactly the
    table the contract [generate(now)] describes for that reading and the next
    120 variates; nothing else of the world enters the result. *)
Theorem generate_sample_vitals_reads_clock (a : cell) (args : list cell) (w : World) :
  call_generate_sample_vitals (a :: args) w = (inl TypeError, w) /\
  call_generate_sample_vitals [] w
  = (inr (Spec.generate (now_of w) (upcoming w)), after_generate w) /\
  clock_pos (after_generate w) = S (clock_pos w).
Proof.
  split; [reflexivity|]. split; [apply generate_sample_vitals_run | reflexivity].
Qed.

(** C3 as stated fails: the instant cannot be supplied.  Passing
    2024-01-01T12:00:00 is a [TypeError]; and two calls with the same (empty)
    arguments and the same variates differ when the clock differs. *)
Lemma generate_sample_vitals_now_not_an_input :
  fst (call_generate_sample_vitals [Time noon_2024] (world_at noon_2024 0))
  = inl TypeError /\
  fst (call_generate_sample_vitals [] (world_at noon_2024 0))
  <> fst (call_generate_sample_vitals [] (world_at (noon_2024 + 1) 0)).
Proof.
  split; [reflexivity|].
  cbn [call_generate_sample_vitals]. rewrite !generate_sample_vitals_run.
  intro H. vm_compute in H. discriminate H.
Qed.

(* ------------------------------------------------------------------ *)
(** ** The latest reading *)

(** In a chronologically ordered list the last element is the largest. *)
Lemma sorted_last_is_max (ts : list Z) :
  StronglySorted Z.le ts ->
  forall n, List.length ts = S n -> Forall (fun t => t <= nth n ts 0) ts.
Proof.
  induction 1 as [|t ts Hs IH Hall]; intros n Hn; [discriminate|].
  cbn in Hn. injection Hn as Hn. destruct n as [|n].
  - destruct ts; [|discriminate]. constructor; [cbn; lia | constructor].
  - constructor.
    + cbn. rewrite Forall_forall in Hall. apply Hall. apply nth_In. lia.
    + cbn. apply IH. exact Hn.
Qed.

(** C5.  For every series that has at least one row and whose timestamps are in
    chronological order, the latest-value accessor returns the sample whose
    timestamp is the maximum of the series: there is a position [n] of the
    table such that the returned row has the table's labels and, under each of
    them, the cell at position [n] of that column, and the timestamp at
    position [n] is at least every timestamp of the series. *)
Theorem latest_vital_max_timestamp (df : DataFrame) (ts : list Z) (w : World) :
  lookup col_timestamp (columns df) = Some (map Time ts) ->
  List.length ts = nrows df ->
  nrows df <> 0%nat ->
  Sorted Z.le ts ->
  exists n row,
    latest_vital df w = (inr row, w) /\
    (n < nrows df)%nat /\
    map fst row = column_names df /\
    (forall c col, lookup c (columns df) = Some col ->
                   lookup c row = Some (nth n col Missing)) /\
    lookup col_timestamp row = Some (Time (nth n ts 0)) /\
    In (nth n ts 0) ts /\
    Forall (fun t' => t' <= nth n ts 0) ts.
Proof.
  intros Hcol Hlen Hne Hsorted.
  destruct (nrows df) as [|n] eqn:Hn; [contradiction|].
  exists n, (row_at df n).
  split; [apply iloc_last; exact Hn|].
  split; [lia|].
  split; [unfold row_at, column_names; rewrite map_map; reflexivity|].
  split; [intros c col Hc; now rewrite row_lookup, Hc|].
  split; [|split].
  - rewrite row_lookup, Hcol. cbn [option_map].
    rewrite (nth_indep _ Missing (Time 0)) by (rewrite length_map; lia).
    now rewrite map_nth.
  - apply nth_In. lia.
  - apply sorted_last_is_max; [|exact Hlen].
    apply Sorted_StronglySorted; [|exact Hsorted].
    intros x y z. apply Z.le_trans.
Qed.

Lemma latest_vital_max_timestamp_witness :
  exists n row,
    latest_vital (Spec.generate noon_2024 (fun _ => 0%Q)) (world_at noon_2024 0)
    = (inr row, world_at noon_2024 0) /\
    (n < 24)%nat /\
    map fst row = column_names (Spec.generate noon_2024 (fun _ => 0%Q)) /\
    (forall c col,
        lookup c (columns (Spec.generate noon_2024 (fun _ => 0%Q))) = Some col ->
        lookup c row = Some (nth n col Missing)) /\
    lookup col_timestamp row = Some (Time (nth n (Spec.hourly_window noon_2024) 0)) /\
    In (nth n (Spec.hourly_window noon_2024) 0) (Spec.hourly_window noon_2024) /\
    Forall (fun t' => t' <= nth n (Spec.hourly_window noon_2024) 0)
           (Spec.hourly_window noon_2024).
Proof.
  apply (latest_vital_max_timestamp
           (Spec.generate noon_2024 (fun _ => 0%Q)) (Spec.hourly_window noon_2024)).
  - reflexivity.
  - reflexivity.
  - discriminate.
  - repeat constructor; vm_compute; discriminate.
Defined.

(** The generator's tables meet the premises above, and their latest row is the
    one stamped with the instant read from the clock. *)
Lemma latest_vital_of_generated (now : Z) (z : nat -> Q) (w : World) :
  Sorted Z.le (timestamps (Spec.generate now z)) /\
  exists row,
    latest_vital (Spec.generate now z) w = (inr row, w) /\
    lookup col_timestamp row = Some (Time now).
Proof.
  split.
  - rewrite timestamps_generate. apply StronglySorted_Sorted.
    pose proof (hourly_window_sorted now) as H.
    induction H as [|t ts Hs IH Hall]; constructor; [exact IH|].
    eapply Forall_impl; [|exact Hall]. intros; lia.
  - eexists. split; [apply (iloc_last _ 23); reflexivity|].
    rewrite row_lookup. cbn. do 2 f_equal. unfold Datetime.us_per_hour. lia.
Qed.

(* ------------------------------------------------------------------ *)
(** ** The integrity check *)

Lemma has_column_lookup (df : DataFrame) (c : string) :
  has_column df c = match lookup c (columns df) with Some _ => true | None => false end.
Proof.
  unfold has_column, column_names.
  induction (columns df) as [|[k col] l IH]; cbn; [reflexivity|].
  destruct (String.eqb c k); [reflexivity | exact IH].
Qed.

Lemma add_events_app (w : World) (a b : list event) :
  add_events (add_events w a) b = add_events w (a ++ b).
Proof. unfold add_events. cbn. now rewrite app_assoc. Qed.

Lemma add_events_nil (w : World) : add_events w [] = w.
Proof. unfold add_events. rewrite app_nil_r. now destruct w. Qed.

(** What the [try]/[except] block does, case by case. *)
Lemma error_handling_run (df : DataFrame) (w : World) :
  error_handling df w =
  if empty df then (inr tt, add_events w [data_error "Vitals data is missing."])
  else if forallb (has_column df) asserted_columns then (inr tt, w)
  else (inr tt, add_events w [data_error "Missing vital sign columns."]).
Proof.
  unfold error_handling, try_except_AssertionError, integrity_asserts, bind, assert.
  destruct (empty df); [reflexivity|]. cbn [negb ret].
  destruct (forallb (has_column df) asserted_columns); reflexivity.
Qed.


(** The error box appears exactly when the table is empty or lacks one of the
    four columns the assertion names. *)
Lemma error_handling_message (df : DataFrame) (w : World) :
  exists evs,
    error_handling df w = (inr tt, add_events w evs) /\
    (existsb is_error evs
     = empty df || negb (forallb (has_column df) asserted_columns)).
Proof.
  rewrite error_handling_run. destruct (empty df).
  - eexists. split; reflexivity.
  - destruct (forallb (has_column df) asserted_columns).
    + exists []. rewrite add_events_nil. split; reflexivity.
    + eexists. split; reflexivity.
Qed.




(** The profile section adds neither a chart nor an error box. *)
Lemma show_profile_run (w : World) :
  exists evs,
    show_profile w = (inr tt, add_events w evs) /\
    existsb is_chart evs = false /\ existsb is_error evs = false.
Proof.
  unfold show_profile, bind, emit, patient_profile. cbn [for_each bind].
  unfold bind, emit, ret. rewrite !add_events_app.
  eexists. split; [reflexivity|]. split; reflexivity.
Qed.

(** Closes a branch of [show_metrics] that ends at a missing column. *)
Ltac stop_at_missing :=
  eexists; rewrite ?add_events_app;
  repeat (split; [reflexivity|]);
  eexists; split; [|reflexivity]; simpl; auto 10.

(** The metric widgets: they need the five vital columns, and stop with a
    [KeyError] at the first one the row lacks. *)
Lemma show_metrics_run (df : DataFrame) (n : nat) (w : World) :
  exists evs,
    snd (show_metrics (row_at df n) w) = add_events w evs /\
    existsb is_chart evs = false /\ existsb is_error evs = false /\
    (if lacks_vital df
     then exists c, In c vital_columns /\
                    fst (show_metrics (row_at df n) w) = inl (KeyError c)
     else fst (show_metrics (row_at df n) w) = inr tt).
Proof.
  unfold lacks_vital, vital_columns. cbn [existsb]. rewrite !has_column_lookup.
  unfold show_metrics, bind, emit, getitem. rewrite !row_lookup.
  destruct (lookup col_heart_rate (columns df)); cbn; [|stop_at_missing].
  destruct (lookup col_systolic (columns df)); cbn; [|stop_at_missing].
  destruct (lookup col_diastolic (columns df)); cbn; [|stop_at_missing].
  destruct (lookup col_spo2 (columns df)); cbn; [|stop_at_missing].
  destruct (lookup col_temperature (columns df)); cbn; [|stop_at_missing].
  eexists. rewrite !add_events_app. repeat (split; [reflexivity|]). reflexivity.
Qed.

Lemma show_history_run (w : World) :
  exists evs,
    show_history w = (inr tt, add_events w evs) /\
    chart_titles evs = ["Existing Medical Conditions"] /\
    existsb is_error evs = false.
Proof.
  unfold show_history, bind, emit. cbn. rewrite !add_events_app.
  eexists. split; [reflexivity|]. split; reflexivity.
Qed.

Lemma show_medication_run (w : World) :
  exists evs,
    show_medication w = (inr tt, add_events w evs) /\
    chart_titles evs = [] /\ existsb is_error evs = false.
Proof.
  unfold show_medication, bind, emit. cbn. rewrite !add_events_app.
  eexists. split; [reflexivity|]. split; reflexivity.
Qed.

(** The trend section: when the table has the five vital columns it draws the
    ten charts if the timestamp column is there too, and otherwise stops with
    Plotly's [ValueError] before drawing any. *)
Lemma show_trends_run (df : DataFrame) (w : World) :
  lacks_vital df = false ->
  exists evs,
    snd (show_trends df w) = add_events w evs /\
    existsb is_error evs = false /\
    (if has_column df col_timestamp
     then fst (show_trends df w) = inr tt /\ chart_titles evs = trend_titles
     else fst (show_trends df w) = inl ValueError /\ chart_titles evs = []).
Proof.
  unfold lacks_vital, vital_columns. cbn [existsb]. intro H.
  repeat (apply orb_false_elim in H; destruct H as [?H H]).
  repeat match goal with
         | H : negb _ = false |- _ => apply negb_false_iff in H
         end.
  unfold show_trends, px, bind, emit. cbn [forallb].
  repeat match goal with
         | H : has_column df _ = true |- _ => rewrite H; clear H
         end.
  destruct (has_column df col_timestamp); cbn; rewrite ?add_events_app;
    eexists; repeat (split; [reflexivity|]); split; reflexivity.
Qed.

Lemma bind_inl {A B : Type} (c : Py A) (k : A -> Py B) (w w' : World) (e : exn) :
  c w = (inl e, w') -> bind c k w = (inl e, w').
Proof. intro H. unfold bind. now rewrite H. Qed.

Lemma bind_inr {A B : Type} (c : Py A) (k : A -> Py B) (w w' : World) (a : A) :
  c w = (inr a, w') -> bind c k w = k a w'.
Proof. intro H. unfold bind. now rewrite H. Qed.

Lemma existsb_app_false {A : Type} (f : A -> bool) (l1 l2 : list A) :
  existsb f l1 = false -> existsb f l2 = false -> existsb f (l1 ++ l2) = false.
Proof. intros H1 H2. now rewrite existsb_app, H1, H2. Qed.

Lemma chart_titles_app (l1 l2 : list event) :
  chart_titles (l1 ++ l2) = (chart_titles l1 ++ chart_titles l2)%list.
Proof. unfold chart_titles. apply flat_map_app. Qed.

Lemma chart_titles_none (evs : list event) :
  existsb is_chart evs = false -> chart_titles evs = [].
Proof.
  induction evs as [|ev evs IH]; [reflexivity|]. cbn.
  destruct ev; cbn; try exact IH. discriminate.
Qed.

(** A table with the five vital columns and at least one row is not empty. *)
Lemma not_empty (df : DataFrame) (n : nat) :
  nrows df = S n -> lacks_vital df = false -> empty df = false.
Proof.
  intros Hn Hv. unfold empty. rewrite Hn. cbn.
  unfold lacks_vital, vital_columns in Hv. cbn [existsb] in Hv.
  apply orb_false_elim in Hv. destruct Hv as [Hv _].
  apply negb_false_iff in Hv. unfold has_column, column_names in Hv.
  destruct (columns df); [discriminate Hv | reflexivity].
Qed.

Lemma asserted_present (df : DataFrame) :
  lacks_vital df = false -> forallb (has_column df) asserted_columns = true.
Proof.
  unfold lacks_vital, vital_columns, asserted_columns. cbn [existsb forallb].
  intro H.
  repeat (apply orb_false_elim in H; destruct H as [?H H]).
  repeat match goal with
         | H : negb _ = false |- _ => apply negb_false_iff in H; rewrite H; clear H
         end.
  reflexivity.
Qed.

Lemma run_pair {A : Type} (c : Py A) (w w' : World) (r : exn + A) :
  fst (c w) = r -> snd (c w) = w' -> c w = (r, w').
Proof. intros <- <-. apply surjective_pairing. Qed.

(** The presentation part of the page on a table with at least one row. *)
Lemma present_run (df : DataFrame) (n : nat) (w : World) :
  nrows df = S n ->
  exists evs,
    snd (present df w) = add_events w evs /\
    existsb is_error evs = false /\
    (if lacks_vital df
     then (exists c, In c vital_columns /\ fst (present df w) = inl (KeyError c)) /\
          existsb is_chart evs = false
     else if has_column df col_timestamp
          then fst (present df w) = inr tt /\
               chart_titles evs = "Existing Medical Conditions" :: trend_titles
          else fst (present df w) = inl ValueError /\
               chart_titles evs = ["Existing Medical Conditions"]).
Proof.
  intro Hn.
  destruct (show_profile_run w) as (e1 & Hprof & Hc1 & He1).
  destruct (show_metrics_run df n (add_events w e1)) as (e2 & Hm & Hc2 & He2 & Hres).
  rewrite add_events_app in Hm.
  unfold present.
  rewrite (bind_inr _ _ w w (row_at df n)) by (apply iloc_last; exact Hn).
  rewrite (bind_inr _ _ _ _ tt Hprof).
  destruct (lacks_vital df) eqn:Hv.
  - destruct Hres as (c & Hin & Hfst).
    rewrite (bind_inl _ _ _ _ _ (run_pair _ _ _ _ Hfst Hm)).
    exists (e1 ++ e2)%list. split; [reflexivity|].
    split; [now apply existsb_app_false|].
    split; [exists c; split; [exact Hin | reflexivity] | now apply existsb_app_false].
  - rewrite (bind_inr _ _ _ _ _ (run_pair _ _ _ _ Hres Hm)).
    destruct (show_history_run (add_events w (e1 ++ e2))) as (e3 & Hh & Ht3 & He3).
    rewrite add_events_app in Hh. rewrite (bind_inr _ _ _ _ _ Hh).
    destruct (show_medication_run (add_events w ((e1 ++ e2) ++ e3)))
      as (e4 & Hmed & Ht4 & He4).
    rewrite add_events_app in Hmed. rewrite (bind_inr _ _ _ _ _ Hmed).
    destruct (show_trends_run df (add_events w (((e1 ++ e2) ++ e3) ++ e4)) Hv)
      as (e5 & Htr & He5 & Hres5).
    rewrite add_events_app in Htr.
    exists ((((e1 ++ e2) ++ e3) ++ e4) ++ e5)%list.
    split; [exact Htr|].
    split; [repeat apply existsb_app_false; assumption|].
    rewrite !chart_titles_app, Ht3, Ht4.
    rewrite (chart_titles_none e1 Hc1), (chart_titles_none e2 Hc2).
    destruct (has_column df col_timestamp); destruct Hres5 as [Hf Ht5];
      rewrite Ht5; split; solve [exact Hf | reflexivity].
Qed.

(* ------------------------------------------------------------------ *)
(** ** The script as a whole *)

(** Every run of the script goes through: it draws the pie chart and the ten
    trend charts, the final assertions hold, and no error box is shown. *)
Lemma app_completes (w : World) :
  exists evs,
    fst (app w) = inr tt /\
    page (snd (app w)) = (page w ++ evs)%list /\
    chart_titles evs = "Existing Medical Conditions" :: trend_titles /\
    existsb is_error evs = false.
Proof.
  set (df := Spec.generate (now_of (add_events w [SetPageConfig "Elderly Health Monitor" "wide";
                                                  Title "🩺 Elderly Patient Health Dashboard"]))
                           (upcoming w)).
  set (w1 := after_generate
               (add_events w [SetPageConfig "Elderly Health Monitor" "wide";
                              Title "🩺 Elderly Patient Health Dashboard"])).
  assert (Happ : app w = dashboard df w1).
  { unfold app, bind, emit. rewrite add_events_app. cbn [app].
    unfold call_generate_sample_vitals. rewrite generate_sample_vitals_run.
    reflexivity. }
  destruct (present_run df 23 w1 eq_refl) as (evs & Hsnd & Herr & Hres).
  change (lacks_vital df) with false in Hres.
  change (has_column df col_timestamp) with true in Hres.
  cbv iota in Hres. destruct Hres as [Hfst Ht].
  pose proof (run_pair _ _ _ _ Hfst Hsnd) as Hp.
  assert (Hcheck : error_handling df (add_events w1 evs) = (inr tt, add_events w1 evs)).
  { rewrite error_handling_run. reflexivity. }
  rewrite Happ. unfold dashboard.
  rewrite (bind_inr _ _ _ _ _ Hp), (bind_inr _ _ _ _ _ Hcheck).
  unfold show_footer, bind, emit. rewrite !add_events_app.
  eexists. split; [reflexivity|]. split.
  - unfold w1, after_generate, add_events. cbn [page]. rewrite <- !app_assoc.
    reflexivity.
  - rewrite !chart_titles_app, Ht, !existsb_app, Herr. split; reflexivity.
Qed.

(* ------------------------------------------------------------------ *)
(** ** Further properties of the page *)

(** X3.  The [try]/[except] block never raises, whatever the table: a failed
    assertion is turned into one error box.  An empty table gets only the
    message of the first assertion, even when columns are missing too; a
    non-empty table gets the second message exactly when it lacks one of the
    four asserted columns. *)
Theorem error_handling_never_raises (df : DataFrame) (w : World) :
  error_handling df w
  = (inr tt,
     add_events w
       (if empty df then [data_error "Vitals data is missing."]
        else if forallb (has_column df) asserted_columns then []
             else [data_error "Missing vital sign columns."])).
Proof.
  rewrite error_handling_run.
  destruct (empty df); [reflexivity|].
  destruct (forallb (has_column df) asserted_columns);
    [now rewrite add_events_nil | reflexivity].
Qed.

(** X5.  The metric widgets are filled in order and the script stops at the
    first column the latest row lacks: the result is the [KeyError] of the
    first missing column among heart rate, systolic, diastolic, SpO2,
    temperature (none missing: success), and the widgets on the page are the
    longest prefix of the four whose columns are all there - a row with
    systolic but no diastolic pressure shows the heart rate only. *)
Theorem show_metrics_stops_at_first_missing (row : Series) (w : World) :
  exists evs,
    snd (show_metrics row w) = add_events w evs /\
    fst (show_metrics row w)
    = match find (fun c => negb (has_label row c)) vital_columns with
      | Some c => inl (KeyError c)
      | None => inr tt
      end /\
    metric_labels evs = shown_widgets row metric_widgets /\
    existsb is_chart evs = false /\ existsb is_error evs = false.
Proof.
  unfold vital_columns, metric_widgets.
  unfold show_metrics, bind, emit, getitem.
  cbn [find shown_widgets forallb]. unfold has_label.
  destruct (lookup col_heart_rate row); cbn;
    [|eexists; rewrite ?add_events_app; repeat (split; [reflexivity|]); reflexivity].
  destruct (lookup col_systolic row); cbn;
    [|eexists; rewrite ?add_events_app; repeat (split; [reflexivity|]); reflexivity].
  destruct (lookup col_diastolic row); cbn;
    [|eexists; rewrite ?add_events_app; repeat (split; [reflexivity|]); reflexivity].
  destruct (lookup col_spo2 row); cbn;
    [|eexists; rewrite ?add_events_app; repeat (split; [reflexivity|]); reflexivity].
  destruct (lookup col_temperature row); cbn;
    eexists; rewrite ?add_events_app; repeat (split; [reflexivity|]); reflexivity.
Qed.

(** X4.  The trend section never draws a partial set of charts: the ten figures
    are all built before the first one is put on the page, so on a table that
    lacks the timestamp column or one of the five vital columns the section
    stops with Plotly's [ValueError] having added its header only. *)
Theorem show_trends_missing_column (df : DataFrame) (w : World) :
  forallb (has_column df) (col_timestamp :: vital_columns) = false ->
  show_trends df w
  = (inl ValueError, add_events w [Header "📈 Vitals Trend (Last 24 Hours)"]).
Proof.
  unfold vital_columns. cbn [forallb].
  unfold show_trends, px, bind, emit. cbn [forallb].
  destruct (has_column df col_timestamp);
    destruct (has_column df col_heart_rate);
    destruct (has_column df col_systolic);
    destruct (has_column df col_diastolic);
    destruct (has_column df col_spo2);
    destruct (has_column df col_temperature);
    cbn; intro H; try discriminate H; reflexivity.
Qed.

Lemma show_trends_missing_column_witness :
  show_trends (without_column col_temperature sample_table) (world_at noon_2024 0)
  = (inl ValueError,
     add_events (world_at noon_2024 0) [Header "📈 Vitals Trend (Last 24 Hours)"]).
Proof.
  apply (show_trends_missing_column
           (without_column col_temperature sample_table) (world_at noon_2024 0)).
  reflexivity.
Defined.

(** The metric widgets on the latest row of a table, in terms of the table's
    columns. *)
Lemma show_metrics_on_row (df : DataFrame) (n : nat) (w : World) :
  exists evs,
    snd (show_metrics (row_at df n) w) = add_events w evs /\
    existsb is_chart evs = false /\ existsb is_error evs = false /\
    fst (show_metrics (row_at df n) w)
    = match find (fun c => negb (has_column df c)) vital_columns with
      | Some c => inl (KeyError c)
      | None => inr tt
      end.
Proof.
  unfold vital_columns. cbn [find]. rewrite !has_column_lookup.
  unfold show_metrics, bind, emit, getitem. rewrite !row_lookup.
  destruct (lookup col_heart_rate (columns df)); cbn;
    [|eexists; rewrite ?add_events_app; repeat (split; [reflexivity|]); reflexivity].
  destruct (lookup col_systolic (columns df)); cbn;
    [|eexists; rewrite ?add_events_app; repeat (split; [reflexivity|]); reflexivity].
  destruct (lookup col_diastolic (columns df)); cbn;
    [|eexists; rewrite ?add_events_app; repeat (split; [reflexivity|]); reflexivity].
  destruct (lookup col_spo2 (columns df)); cbn;
    [|eexists; rewrite ?add_events_app; repeat (split; [reflexivity|]); reflexivity].
  destruct (lookup col_temperature (columns df)); cbn;
    eexists; rewrite ?add_events_app; repeat (split; [reflexivity|]); reflexivity.
Qed.

Lemma none_missing (df : DataFrame) :
  find (fun c => negb (has_column df c)) vital_columns = None ->
  lacks_vital df = false.
Proof.
  unfold lacks_vital, vital_columns. cbn [find existsb].
  destruct (has_column df col_heart_rate); [|discriminate].
  destruct (has_column df col_systolic); [|discriminate].
  destruct (has_column df col_diastolic); [|discriminate].
  destruct (has_column df col_spo2); [|discriminate].
  destruct (has_column df col_temperature); [reflexivity | discriminate].
Qed.

(** The presentation part on a table with at least one row: where it stops. *)
Lemma present_outcome (df : DataFrame) (n : nat) (w : World) :
  nrows df = S n ->
  exists evs,
    snd (present df w) = add_events w evs /\
    existsb is_error evs = false /\
    fst (present df w)
    = match find (fun c => negb (has_column df c)) vital_columns with
      | Some c => inl (KeyError c)
      | None => if has_column df col_timestamp then inr tt else inl ValueError
      end.
Proof.
  intro Hn.
  destruct (show_profile_run w) as (e1 & Hprof & Hc1 & He1).
  destruct (show_metrics_on_row df n (add_events w e1)) as (e2 & Hm & Hc2 & He2 & Hres).
  rewrite add_events_app in Hm.
  unfold present.
  rewrite (bind_inr _ _ w w (row_at df n)) by (apply iloc_last; exact Hn).
  rewrite (bind_inr _ _ _ _ tt Hprof).
  destruct (find (fun c => negb (has_column df c)) vital_columns) as [c|] eqn:Hfind.
  - rewrite (bind_inl _ _ _ _ _ (run_pair _ _ _ _ Hres Hm)).
    exists (e1 ++ e2)%list. repeat split. now apply existsb_app_false.
  - pose proof (none_missing df Hfind) as Hv.
    rewrite (bind_inr _ _ _ _ _ (run_pair _ _ _ _ Hres Hm)).
    destruct (show_history_run (add_events w (e1 ++ e2))) as (e3 & Hh & Ht3 & He3).
    rewrite add_events_app in Hh. rewrite (bind_inr _ _ _ _ _ Hh).
    destruct (show_medication_run (add_events w ((e1 ++ e2) ++ e3)))
      as (e4 & Hmed & Ht4 & He4).
    rewrite add_events_app in Hmed. rewrite (bind_inr _ _ _ _ _ Hmed).
    destruct (show_trends_run df (add_events w (((e1 ++ e2) ++ e3) ++ e4)) Hv)
      as (e5 & Htr & He5 & Hres5).
    rewrite add_events_app in Htr.
    exists ((((e1 ++ e2) ++ e3) ++ e4) ++ e5)%list.
    split; [exact Htr|].
    split; [repeat apply existsb_app_false; assumption|].
    destruct (has_column df col_timestamp); destruct Hres5 as [Hf _]; exact Hf.
Qed.

Lemma some_missing (df : DataFrame) (c : string) :
  find (fun c => negb (has_column df c)) vital_columns = Some c ->
  lacks_vital df = true.
Proof.
  unfold lacks_vital, vital_columns. cbn [find existsb].
  destruct (has_column df col_heart_rate); [|reflexivity].
  destruct (has_column df col_systolic); [|reflexivity].
  destruct (has_column df col_diastolic); [|reflexivity].
  destruct (has_column df col_spo2); [|reflexivity].
  destruct (has_column df col_temperature); [discriminate | reflexivity].
Qed.

Lemma add_events_inj (w : World) (a b : list event) :
  add_events w a = add_events w b -> a = b.
Proof.
  unfold add_events. intro H. injection H as H. now apply app_inv_head in H.
Qed.

(** X2.  How the script stops on a table that has no row or lacks a column.
    With no row the accessor raises [IndexError] and the page is untouched;
    otherwise the first missing vital column gives a [KeyError] in the metric
    section, before any chart; otherwise a missing timestamp column gives
    Plotly's [ValueError] in the trend section, after the pie chart and before
    any trend chart.  Only the page changes, and the error box of the final
    [try]/[except] is never shown: every such table has stopped the script
    before the assertions. *)
Theorem dashboard_stops_on_bad_table (df : DataFrame) (w : World) (e : exn) :
  expected_failure df = Some e ->
  exists evs,
    dashboard df w = (inl e, add_events w evs) /\
    existsb is_error evs = false /\
    chart_titles evs = match e with
                       | ValueError => ["Existing Medical Conditions"]
                       | _ => []
                       end.
Proof.
  unfold expected_failure, dashboard.
  destruct (nrows df) as [|n] eqn:Hn.
  { cbn [Nat.eqb]. intro H. injection H as <-.
    exists []. rewrite add_events_nil.
    split; [|split; reflexivity].
    apply bind_inl. unfold present. apply bind_inl. apply iloc_no_rows. exact Hn. }
  cbn [Nat.eqb].
  destruct (present_outcome df n w Hn) as (evs & Hsnd & Herr & Hfst).
  destruct (present_run df n w Hn) as (evs' & Hsnd' & _ & Hres).
  rewrite Hsnd in Hsnd'. apply add_events_inj in Hsnd'. subst evs'.
  destruct (find (fun c => negb (has_column df c)) vital_columns) as [c|] eqn:Hfind.
  - intro H. injection H as <-.
    rewrite (some_missing df c Hfind) in Hres. destruct Hres as [_ Hch].
    exists evs. split; [apply bind_inl; now apply run_pair|].
    split; [exact Herr | now apply chart_titles_none].
  - rewrite (none_missing df Hfind) in Hres.
    destruct (has_column df col_timestamp); [discriminate|].
    intro H. injection H as <-. destruct Hres as [_ Hch].
    exists evs. split; [apply bind_inl; now apply run_pair|].
    split; [exact Herr | exact Hch].
Qed.

Lemma dashboard_stops_on_bad_table_witness :
  exists evs,
    dashboard (without_column col_spo2 sample_table) (world_at noon_2024 0)
    = (inl (KeyError col_spo2), add_events (world_at noon_2024 0) evs) /\
    existsb is_error evs = false /\
    chart_titles evs = [].
Proof.
  apply (dashboard_stops_on_bad_table
           (without_column col_spo2 sample_table) (world_at noon_2024 0)
           (KeyError col_spo2)).
  reflexivity.
Defined.

(** On a row that has the five vital cells the metric section succeeds and
    puts exactly the four widgets on the page, after its header. *)
Lemma show_metrics_events (row : Series) (w : World) :
  forallb (has_label row) vital_columns = true ->
  show_metrics row w
  = (inr tt,
     add_events w ([Header "🔴 Real-time Vitals"; Columns 4] ++ latest_widgets row)).
Proof.
  unfold vital_columns, has_label, latest_widgets, field. cbn [forallb].
  unfold show_metrics, bind, emit, getitem.
  destruct (lookup col_heart_rate row); [|discriminate].
  destruct (lookup col_systolic row); [|discriminate].
  destruct (lookup col_diastolic row); [|discriminate].
  destruct (lookup col_spo2 row); [|discriminate].
  destruct (lookup col_temperature row); [|discriminate].
  intros _. cbn. rewrite !add_events_app. reflexivity.
Qed.

Lemma chart_titles_none_inv (evs : list event) :
  chart_titles evs = [] -> existsb is_chart evs = false.
Proof.
  induction evs as [|ev evs IH]; [reflexivity|]. cbn.
  destruct ev; cbn; try exact IH. discriminate.
Qed.

(** The sections around the metric widgets, with everything the page-level
    statements need: no metric widget, no error box, and their charts. *)
Lemma show_profile_page (w : World) :
  exists evs,
    show_profile w = (inr tt, add_events w evs) /\
    chart_titles evs = [] /\ existsb is_error evs = false /\ metric_labels evs = [].
Proof.
  unfold show_profile, bind, emit, patient_profile. cbn [for_each bind].
  unfold bind, emit, ret. rewrite !add_events_app.
  eexists. repeat (split; [reflexivity|]). reflexivity.
Qed.

Lemma show_history_page (w : World) :
  exists evs,
    show_history w = (inr tt, add_events w evs) /\
    chart_titles evs = ["Existing Medical Conditions"] /\
    existsb is_error evs = false /\ metric_labels evs = [].
Proof.
  unfold show_history, bind, emit. cbn. rewrite !add_events_app.
  eexists. repeat (split; [reflexivity|]). reflexivity.
Qed.

Lemma show_medication_page (w : World) :
  exists evs,
    show_medication w = (inr tt, add_events w evs) /\
    chart_titles evs = [] /\ existsb is_error evs = false /\ metric_labels evs = [].
Proof.
  unfold show_medication, bind, emit. cbn. rewrite !add_events_app.
  eexists. repeat (split; [reflexivity|]). reflexivity.
Qed.

Lemma show_trends_page (df : DataFrame) (w : World) :
  forallb (has_column df) (col_timestamp :: vital_columns) = true ->
  exists evs,
    show_trends df w = (inr tt, add_events w evs) /\
    chart_titles evs = trend_titles /\
    existsb is_error evs = false /\ metric_labels evs = [].
Proof.
  unfold vital_columns. cbn [forallb]. intro H.
  repeat (apply andb_prop in H; destruct H as [?H H]).
  unfold show_trends, px, bind, emit. cbn [forallb].
  repeat match goal with
         | H : has_column df _ = true |- _ => rewrite H; clear H
         end.
  cbn. rewrite ?add_events_app.
  eexists. repeat (split; [reflexivity|]). reflexivity.
Qed.

(** The page one run of the script adds, section by section. *)
Lemma app_page (w : World) :
  exists e1 e3 e4 e5,
    app w
    = (inr tt,
       add_events (after_generate w)
         ([SetPageConfig "Elderly Health Monitor" "wide";
           Title "🩺 Elderly Patient Health Dashboard"]
          ++ e1
          ++ ([Header "🔴 Real-time Vitals"; Columns 4]
              ++ latest_widgets (row_at (Spec.generate (now_of w) (upcoming w)) 23))
          ++ e3 ++ e4 ++ e5
          ++ [Markdown [Lit "---"];
              Markdown [Lit "👨‍⚕️ *Developed for remote elderly patient health tracking.*"]])) /\
    (existsb is_chart e1 = false /\ existsb is_error e1 = false /\ metric_labels e1 = []) /\
    (chart_titles e3 = ["Existing Medical Conditions"] /\ existsb is_error e3 = false
     /\ metric_labels e3 = []) /\
    (chart_titles e4 = [] /\ existsb is_error e4 = false /\ metric_labels e4 = []) /\
    (chart_titles e5 = trend_titles /\ existsb is_error e5 = false /\ metric_labels e5 = []).
Proof.
  set (df := Spec.generate (now_of w) (upcoming w)).
  set (cfg := [SetPageConfig "Elderly Health Monitor" "wide";
               Title "🩺 Elderly Patient Health Dashboard"]).
  set (w1 := add_events (after_generate w) cfg).
  assert (Happ : app w = dashboard df w1).
  { unfold app, bind, emit. rewrite add_events_app. cbn [app].
    unfold call_generate_sample_vitals. rewrite generate_sample_vitals_run.
    reflexivity. }
  destruct (show_profile_page w1) as (e1 & Hprof & Hp1).
  pose proof (show_metrics_events (row_at df 23) (add_events w1 e1) eq_refl) as Hm.
  rewrite add_events_app in Hm.
  set (widgets := ([Header "🔴 Real-time Vitals"; Columns 4]
                   ++ latest_widgets (row_at df 23))%list) in *.
  destruct (show_history_page (add_events w1 (e1 ++ widgets))) as (e3 & Hh & Hp3).
  rewrite add_events_app in Hh.
  destruct (show_medication_page (add_events w1 ((e1 ++ widgets) ++ e3)))
    as (e4 & Hmed & Hp4).
  rewrite add_events_app in Hmed.
  destruct (show_trends_page df (add_events w1 (((e1 ++ widgets) ++ e3) ++ e4)) eq_refl)
    as (e5 & Htr & Hp5).
  rewrite add_events_app in Htr.
  assert (Hp : present df w1
               = (inr tt, add_events w1 ((((e1 ++ widgets) ++ e3) ++ e4) ++ e5))).
  { unfold present.
    rewrite (bind_inr _ _ w1 w1 (row_at df 23)) by (apply (iloc_last df 23); reflexivity).
    rewrite (bind_inr _ _ _ _ tt Hprof), (bind_inr _ _ _ _ tt Hm).
    rewrite (bind_inr _ _ _ _ tt Hh), (bind_inr _ _ _ _ tt Hmed). exact Htr. }
  exists e1, e3, e4, e5. split; [|repeat split; try apply Hp1; try apply Hp3;
                                  try apply Hp4; try apply Hp5].
  - rewrite Happ. unfold dashboard. rewrite (bind_inr _ _ _ _ _ Hp).
    rewrite (bind_inr _ _ _ (add_events w1 ((((e1 ++ widgets) ++ e3) ++ e4) ++ e5)) tt)
      by (rewrite error_handling_run; reflexivity).
    unfold show_footer, bind, emit. unfold w1. rewrite !add_events_app.
    rewrite <- !app_assoc. reflexivity.
  - apply chart_titles_none_inv. apply Hp1.
Qed.

Lemma metric_labels_app (l1 l2 : list event) :
  metric_labels (l1 ++ l2) = (metric_labels l1 ++ metric_labels l2)%list.
Proof. unfold metric_labels. apply flat_map_app. Qed.

(** X1.  Every run of the script completes, whatever the clock and the
    variates: it calls the generator exactly once (one clock reading, 120
    variates consumed), adds the four metric widgets, the pie chart and the
    ten trend charts to the page in that order, and never shows the error
    box. *)
Theorem app_run (w : World) :
  fst (app w) = inr tt /\
  clock_pos (snd (app w)) = S (clock_pos w) /\
  rng_pos (snd (app w)) = (rng_pos w + 120)%nat /\
  exists evs,
    page (snd (app w)) = (page w ++ evs)%list /\
    metric_labels evs = ["Heart Rate"; "Blood Pressure"; "SpO2"; "Temperature"] /\
    chart_titles evs = "Existing Medical Conditions" :: trend_titles /\
    existsb is_error evs = false.
Proof.
  destruct (app_page w) as (e1 & e3 & e4 & e5 & Happ & H1 & H3 & H4 & H5).
  destruct H1 as (Hc1 & He1 & Hm1). destruct H3 as (Hc3 & He3 & Hm3).
  destruct H4 as (Hc4 & He4 & Hm4). destruct H5 as (Hc5 & He5 & Hm5).
  rewrite Happ. cbn [fst snd]. split; [reflexivity|].
  split; [reflexivity|]. split; [reflexivity|].
  eexists. split; [reflexivity|].
  rewrite !metric_labels_app, !chart_titles_app, !existsb_app.
  rewrite Hm1, Hm3, Hm4, Hm5, Hc3, Hc4, Hc5, He1, He3, He4, He5.
  rewrite (chart_titles_none e1 Hc1).
  repeat split; reflexivity.
Qed.

(** X9.  The four metric widgets of a run show the latest sample: the cells of
    the last row of the generated table, the row stamped with the instant the
    generator read from the clock.  They are the only metric widgets the run
    adds. *)
Theorem app_shows_latest_sample (w : World) :
  exists df row pre post,
    fst (generate_sample_vitals w) = inr df /\
    latest_vital df w = (inr row, w) /\
    lookup col_timestamp row = Some (Time (now_of w)) /\
    page (snd (app w)) = (page w ++ pre ++ latest_widgets row ++ post)%list /\
    metric_labels pre = [] /\ metric_labels post = [].
Proof.
  destruct (app_page w) as (e1 & e3 & e4 & e5 & Happ & H1 & H3 & H4 & H5).
  destruct H1 as (_ & _ & Hm1). destruct H3 as (_ & _ & Hm3).
  destruct H4 as (_ & _ & Hm4). destruct H5 as (_ & _ & Hm5).
  exists (Spec.generate (now_of w) (upcoming w)),
         (row_at (Spec.generate (now_of w) (upcoming w)) 23).
  exists ([SetPageConfig "Elderly Health Monitor" "wide";
           Title "🩺 Elderly Patient Health Dashboard"]
          ++ e1 ++ [Header "🔴 Real-time Vitals"; Columns 4])%list.
  exists (e3 ++ e4 ++ e5
          ++ [Markdown [Lit "---"];
              Markdown [Lit "👨‍⚕️ *Developed for remote elderly patient health tracking.*"]])%list.
  split; [now rewrite generate_sample_vitals_run|].
  split; [apply (iloc_last _ 23); reflexivity|].
  split.
  { rewrite row_lookup.
    change (lookup col_timestamp (columns (Spec.generate (now_of w) (upcoming w))))
      with (Some (map Time (Spec.hourly_window (now_of w)))).
    cbn [option_map].
    rewrite (nth_indep _ Missing (Time 0)) by (cbn; lia).
    rewrite map_nth, hourly_window_nth by lia.
    do 2 f_equal. change (Z.of_nat 23) with 23. lia. }
  split.
  { rewrite Happ. cbn [snd]. unfold add_events, after_generate. cbn [page].
    f_equal. rewrite <- !app_assoc. reflexivity. }
  split.
  - rewrite !metric_labels_app, Hm1. reflexivity.
  - rewrite !metric_labels_app, Hm3, Hm4, Hm5. reflexivity.
Qed.

(* ------------------------------------------------------------------ *)
(** ** Further properties of the tables *)

Lemma flag_is_one (z : Z) :
  match z with 1 => true | _ => false end = (z =? 1).
Proof. destruct z as [|p|p]; reflexivity. Qed.

Lemma keep_map_filter {A B : Type} (p : A -> bool) (f : A -> B) (l : list A) :
  keep (map p l) (map f l) = map f (filter p l).
Proof.
  induction l as [|x l IH]; [reflexivity|]. cbn.
  destruct (p x); cbn; now rewrite IH.
Qed.

Lemma count_mask {A : Type} (p : A -> bool) (l : list A) :
  List.length (filter (fun b : bool => b) (map p l)) = List.length (filter p l).
Proof.
  induction l as [|x l IH]; [reflexivity|]. cbn.
  destruct (p x); cbn; now rewrite IH.
Qed.

(** X6.  Whatever the conditions dictionary, the medical-history pipeline
    (table from the dictionary, rows whose flag equals 1, pie chart by
    condition name) cannot fail, and the chart is drawn from exactly the
    entries whose flag is 1, in dictionary order - also when there is none. *)
Theorem medical_history_lists_flagged (d : list (string * Z)) (w : World) :
  (shown <- rows_where_one (from_dict_index "Condition" "Has Condition" d)
                           "Has Condition" ;;
   px Pie shown ["Condition"] "Existing Medical Conditions") w
  = (inr (mkFigure Pie "Existing Medical Conditions"
            (mkDataFrame (List.length (flagged d))
               [ ("Condition", map (fun kv => Str (fst kv)) (flagged d));
                 ("Has Condition", map (fun kv => Int (snd kv)) (flagged d)) ])
            ["Condition"]),
     w).
Proof.
  unfold rows_where_one, from_dict_index, flagged. cbn [columns lookup].
  change (String.eqb "Has Condition" "Condition") with false.
  change (String.eqb "Has Condition" "Has Condition") with true.
  cbv iota. unfold bind, ret. cbn [map fst snd].
  rewrite map_map.
  rewrite (map_ext (fun kv : string * Z =>
                      match Int (snd kv) with Int 1 => true | _ => false end)
                   (fun kv => snd kv =? 1))
    by (intro kv; apply flag_is_one).
  rewrite !keep_map_filter, count_mask.
  reflexivity.
Qed.

Lemma record_rebuild (r : list (string * cell)) :
  NoDup (map fst r) -> map (fun k => (k, field k r)) (map fst r) = r.
Proof.
  induction r as [|[k0 v0] r IH]; intro Hnd; [reflexivity|].
  cbn [map fst]. inversion Hnd as [|? ? Hnotin Hnd']; subst.
  f_equal.
  - unfold field. cbn. now rewrite String.eqb_refl.
  - rewrite <- (IH Hnd') at 2. apply map_ext_in. intros k Hk.
    unfold field. cbn. destruct (String.eqb k k0) eqn:E; [|reflexivity].
    apply String.eqb_eq in E. subst. contradiction.
Qed.

(** X7.  The medication table is a faithful copy of the schedule: for records
    that all carry the same keys, without repetition, the table has one row
    per record and the columns of the records, and reading row [i] back gives
    record [i], key for key. *)
Theorem medication_table_round_trip
    (r0 : list (string * cell)) (rest : list (list (string * cell))) (i : nat) :
  Forall (fun r => map fst r = map fst r0) rest ->
  NoDup (map fst r0) ->
  (i < List.length (r0 :: rest))%nat ->
  nrows (DataFrame_of_records (r0 :: rest)) = List.length (r0 :: rest) /\
  column_names (DataFrame_of_records (r0 :: rest)) = map fst r0 /\
  row_at (DataFrame_of_records (r0 :: rest)) i = nth i (r0 :: rest) [].
Proof.
  intros Hkeys Hnd Hi. unfold DataFrame_of_records.
  split; [reflexivity|]. split.
  - unfold column_names. cbn [columns]. rewrite map_map. cbn [fst].
    apply map_id.
  - unfold row_at. cbn [columns]. rewrite map_map. cbn [fst snd].
    assert (Hr : map fst (nth i (r0 :: rest) []) = map fst r0).
    { assert (Hin : In (nth i (r0 :: rest) []) (r0 :: rest)) by (apply nth_In; exact Hi).
      destruct Hin as [<-|Hin]; [reflexivity|].
      rewrite Forall_forall in Hkeys. now apply Hkeys. }
    rewrite <- (record_rebuild (nth i (r0 :: rest) [])) by (rewrite Hr; exact Hnd).
    rewrite Hr. apply map_ext. intro k. f_equal.
    change Missing with (field k []).
    now rewrite (map_nth (field k)).
Qed.

Lemma medication_table_round_trip_witness :
  nrows (DataFrame_of_records medication_schedule) = 3%nat /\
  column_names (DataFrame_of_records medication_schedule)
  = ["Medicine"; "Dosage"; "Time"] /\
  row_at (DataFrame_of_records medication_schedule) 2
  = [("Medicine", Str "Atorvastatin"); ("Dosage", Str "10mg"); ("Time", Str "8:00 PM")].
Proof.
  apply (medication_table_round_trip
           [("Medicine", Str "Aspirin"); ("Dosage", Str "75mg"); ("Time", Str "8:00 AM")]
           [ [("Medicine", Str "Metformin"); ("Dosage", Str "500mg");
              ("Time", Str "12:00 PM")];
             [("Medicine", Str "Atorvastatin"); ("Dosage", Str "10mg");
              ("Time", Str "8:00 PM")] ]
           2).
  - repeat constructor.
  - repeat constructor; simpl; intuition discriminate.
  - simpl. lia.
Defined.

(* ------------------------------------------------------------------ *)
(** ** What the generator can produce *)





(** X10.  The numbers do not depend on the clock: two runs that see the same
    120 variates return the same five numeric columns, whatever instants they
    read (only the timestamp column can differ). *)
Theorem vitals_independent_of_clock (w1 w2 : World) :
  (forall k, (k < 120)%nat -> upcoming w1 k = upcoming w2 k) ->
  exists df1 df2,
    fst (generate_sample_vitals w1) = inr df1 /\
    fst (generate_sample_vitals w2) = inr df2 /\
    Forall (fun c => lookup c (columns df1) = lookup c (columns df2)) vital_columns.
Proof.
  intro Hz. rewrite !generate_sample_vitals_run. do 2 eexists.
  split; [reflexivity|]. split; [reflexivity|].
  assert (H0 := sample_column_ext 75 5 (upcoming w1) (upcoming w2) 0).
  assert (H1 := sample_column_ext 120 10 (upcoming w1) (upcoming w2) 24).
  assert (H2 := sample_column_ext 80 5 (upcoming w1) (upcoming w2) 48).
  assert (H3 := sample_column_ext 98 1 (upcoming w1) (upcoming w2) 72).
  assert (H4 := sample_column_ext 98.6 0.5 (upcoming w1) (upcoming w2) 96).
  unfold vital_columns.
  repeat (apply Forall_cons;
          [cbn -[Spec.sample_column]; f_equal;
           first [apply H0 | apply H1 | apply H2 | apply H3 | apply H4];
           intros i Hi; apply Hz; lia|]).
  apply Forall_nil.
Qed.

Lemma vitals_independent_of_clock_witness :
  exists df1 df2,
    fst (generate_sample_vitals (world_at noon_2024 1)) = inr df1 /\
    fst (generate_sample_vitals (world_at (noon_2024 + 5) 1)) = inr df2 /\
    Forall (fun c => lookup c (columns df1) = lookup c (columns df2)) vital_columns.
Proof.
  apply (vitals_independent_of_clock (world_at noon_2024 1) (world_at (noon_2024 + 5) 1)).
  intros k Hk. reflexivity.
Defined.

(* ------------------------------------------------------------------ *)
(** ** Where the integrity check sits in a run *)







